(** * The sysrepo Python 2 example application

    A shallow embedding of
    [swig/python2/examples/pytho2_application_example.py]: the value
    formatter [print_value], the configuration dumper
    [print_current_config], the change callback [module_change_cb] and
    the script body, over a small model of the Python 2 [print]
    statement, of Python exceptions and of the client library the script
    is glue for. *)

From Stdlib Require Import String Ascii List ZArith Bool Arith Lia.
From Stdlib Require Import DecimalString.
Import ListNotations.
Local Open Scope string_scope.

(** ** Strings *)

Definition nl : string := String "010"%char EmptyString.

(** ** Python 2 objects and exceptions *)

(** The exception classes the model distinguishes.  In Python 2 (since
    2.5) [KeyboardInterrupt] and [SystemExit] derive from [BaseException]
    only; the others derive from [Exception]. *)
Inductive exn_class : Type :=
| RuntimeError | TypeError | IndexError | AttributeError | IOError
| UnicodeEncodeError
| KeyboardInterrupt | SystemExit.

(** The message an exception was built with: a byte string ([str]) or a
    [unicode] object, given by its code points. *)
Inductive message : Type :=
| Bytes (s : string)
| Unicode (points : list N).

Record pyexn : Type := { exn_type : exn_class; exn_message : message }.

(** [isinstance(e, Exception)]: what [except Exception] tests. *)
Definition isinstance_Exception (e : pyexn) : bool :=
  match exn_type e with
  | KeyboardInterrupt | SystemExit => false
  | _ => true
  end.

Definition class_name (c : exn_class) : string :=
  match c with
  | RuntimeError => "RuntimeError"
  | TypeError => "TypeError"
  | IndexError => "IndexError"
  | AttributeError => "AttributeError"
  | IOError => "IOError"
  | UnicodeEncodeError => "UnicodeEncodeError"
  | KeyboardInterrupt => "KeyboardInterrupt"
  | SystemExit => "SystemExit"
  end.

(** The objects the script handles, exceptions apart: what the
    accessors of the binding return. *)
Inductive pyobj : Type :=
| PyStr (s : string)
| PyInt (n : Z)
| PyLong (n : Z)
| PyBool (b : bool)
| PyNone.

(** [sys.maxint] of a 64-bit build: the binding returns an [int] for a
    C integer that fits a C long and a [long] otherwise. *)
Definition sys_maxint : Z := 9223372036854775807.

Definition py_integer (n : Z) : pyobj :=
  if ((- sys_maxint - 1 <=? n) && (n <=? sys_maxint))%Z then PyInt n else PyLong n.

Definition decimal (n : Z) : string := NilZero.string_of_int (Z.to_int n).

Definition hex_digit (n : nat) : ascii :=
  if (n <? 10)%nat then ascii_of_nat (48 + n) else ascii_of_nat (87 + n).

Fixpoint contains_char (c : ascii) (s : string) : bool :=
  match s with
  | EmptyString => false
  | String x r => Ascii.eqb x c || contains_char c r
  end.

(** [repr] of a [str]: single quotes unless the string holds a single
    quote and no double quote; backslash escapes for the quote, the
    backslash, tab, newline and carriage return; [\xHH] for the other
    bytes outside the printable ASCII range. *)
Definition squote : ascii := "039"%char.
Definition dquote : ascii := "034"%char.
Definition backslash : ascii := "092"%char.

Definition repr_char (quote c : ascii) : string :=
  let n := nat_of_ascii c in
  if Ascii.eqb c quote || Ascii.eqb c backslash then String backslash (String c EmptyString)
  else if (n =? 9)%nat then String backslash "t"
  else if (n =? 10)%nat then String backslash "n"
  else if (n =? 13)%nat then String backslash "r"
  else if ((n <? 32) || (127 <=? n))%nat then
    String backslash (String "x"%char
      (String (hex_digit (n / 16)) (String (hex_digit (n mod 16)) EmptyString)))
  else String c EmptyString.

Fixpoint repr_chars (quote : ascii) (s : string) : string :=
  match s with
  | EmptyString => EmptyString
  | String c r => repr_char quote c ++ repr_chars quote r
  end.

Definition repr_str (s : string) : string :=
  let quote := if contains_char squote s && negb (contains_char dquote s)
               then dquote else squote in
  String quote (repr_chars quote s ++ String quote EmptyString).

Definition repr (o : pyobj) : string :=
  match o with
  | PyStr s => repr_str s
  | PyInt n => decimal n
  | PyLong n => decimal n ++ "L"
  | PyBool b => if b then "True" else "False"
  | PyNone => "None"
  end.

(** [str(o)], what [print o] writes. *)
Definition str (o : pyobj) : string :=
  match o with
  | PyStr s => s
  | PyInt n | PyLong n => decimal n
  | PyBool b => if b then "True" else "False"
  | PyNone => "None"
  end.

(** Truth value of an object, as tested by [if]. *)
Definition truth (o : pyobj) : bool :=
  match o with
  | PyStr s => negb (String.eqb s EmptyString)
  | PyInt n | PyLong n => negb (n =? 0)%Z
  | PyBool b => b
  | PyNone => false
  end.

Definition type_name (o : pyobj) : string :=
  match o with
  | PyStr _ => "str"
  | PyInt _ => "int"
  | PyLong _ => "long"
  | PyBool _ => "bool"
  | PyNone => "NoneType"
  end.

(** ** The world: standard output and the calls made into the library *)

Inductive call : Type :=
| Call_Connection (app_name : string)
| Call_Session
| Call_Subscribe
| Call_module_change_subscribe (module_name : string)
| Call_get_items (xpath : string)
| Call_global_loop.

(** [stdout] is the text written so far, [softspace] the flag of the
    same name that the [print] statement keeps on the file object,
    [calls] the calls made so far on the connection, the session, the
    subscription and the event loop of the library, oldest first (the
    methods of a value record read the record and are not recorded), and
    [subscribed] the module names for which the library holds a change
    callback. *)
Record world : Type := mkWorld {
  stdout : string;
  softspace : bool;
  calls : list call;
  subscribed : list string
}.

(** The world the script starts in. *)
Definition world0 : world := mkWorld EmptyString false [] [].

(** ** A state and exception monad

    An exception leaves the world as it was when it was raised: what has
    been printed stays printed. *)

Inductive result (A : Type) : Type :=
| Ok (a : A)
| Raise (e : pyexn).
Arguments Ok {A} a.
Arguments Raise {A} e.

Definition M (A : Type) : Type := world -> result A * world.

Definition ret {A} (a : A) : M A := fun w => (Ok a, w).

Definition raise {A} (e : pyexn) : M A := fun w => (Raise e, w).

Definition bind {A B} (c : M A) (k : A -> M B) : M B :=
  fun w =>
    match c w with
    | (Ok a, w') => k a w'
    | (Raise e, w') => (Raise e, w')
    end.

Declare Scope py_scope.
Delimit Scope py_scope with py.
Notation "x <- c ;; k" := (bind c (fun x => k))
  (at level 61, c at next level, right associativity) : py_scope.
Notation "c ;; k" := (bind c (fun _ => k))
  (at level 61, right associativity) : py_scope.
Local Open Scope py_scope.

(** [try: body except Exception as e: handler e]. *)
Definition try_except_Exception {A} (body : M A) (handler : pyexn -> M A) : M A :=
  fun w =>
    match body w with
    | (Ok a, w') => (Ok a, w')
    | (Raise e, w') =>
        if isinstance_Exception e then handler e w' else (Raise e, w')
    end.

(** [for x in l: body x]. *)
Fixpoint for_each {A} (l : list A) (body : A -> M unit) : M unit :=
  match l with
  | [] => ret tt
  | x :: r => body x ;; for_each r body
  end.

(** [range(n)]. *)
Definition range (n : nat) : list nat := seq 0 n.

(** [a + o] for a [str] [a]. *)
Definition str_add (a : string) (o : pyobj) : M string :=
  match o with
  | PyStr s => ret (a ++ s)
  | _ => raise {| exn_type := TypeError;
                  exn_message := Bytes ("cannot concatenate 'str' and '"
                                        ++ type_name o ++ "' objects") |}
  end.

(** ** The text of an exception

    [str(e)] is [str] of the message.  For a [unicode] message that is
    the encoding to ASCII, which fails at the first run of code points
    above 127 with a [UnicodeEncodeError]; code points are those of a
    wide build. *)

Fixpoint hex_pad (width : nat) (n : N) : string :=
  match width with
  | O => EmptyString
  | S width' =>
      hex_pad width' (n / 16)
      ++ String (hex_digit (N.to_nat (n mod 16))) EmptyString
  end.

(** The escape of a code point in the text of the error: [\xhh],
    [\uhhhh] or [\Uhhhhhhhh]. *)
Definition escaped_point (c : N) : string :=
  String backslash
    (if (c <=? 255)%N then "x" ++ hex_pad 2 c
     else if (c <=? 65535)%N then "u" ++ hex_pad 4 c
     else "U" ++ hex_pad 8 c).

(** The number of code points above 127 at the head of [points]. *)
Fixpoint non_ascii_run (points : list N) : nat :=
  match points with
  | [] => O
  | c :: r => if (128 <=? c)%N then S (non_ascii_run r) else O
  end.

Definition ascii_codec_error (start : nat) (c : N) (rest : list N) : pyexn :=
  let reason := ": ordinal not in range(128)" in
  let last := (start + non_ascii_run rest)%nat in
  {| exn_type := UnicodeEncodeError;
     exn_message :=
       Bytes (if (non_ascii_run rest =? 0)%nat then
                "'ascii' codec can't encode character u'" ++ escaped_point c
                ++ "' in position " ++ decimal (Z.of_nat start) ++ reason
              else
                "'ascii' codec can't encode characters in position "
                ++ decimal (Z.of_nat start) ++ "-" ++ decimal (Z.of_nat last)
                ++ reason) |}.

(** [u.encode('ascii')], from the position [start] on, [done] being the
    characters already encoded, last first. *)
Fixpoint encode_ascii_from (start : nat) (rest : list N) (done : list ascii)
    : result string :=
  match rest with
  | [] => Ok (string_of_list_ascii (rev done))
  | c :: r =>
      if (128 <=? c)%N then Raise (ascii_codec_error start c r)
      else encode_ascii_from (S start) r (ascii_of_N c :: done)
  end.

Definition encode_ascii (points : list N) : result string :=
  encode_ascii_from 0 points [].

(** [str(e)] for an exception built with one message: the text, or the
    exception that the encoding raises. *)
Definition exception_str (e : pyexn) : result string :=
  match exn_message e with
  | Bytes s => Ok s
  | Unicode points => encode_ascii points
  end.

(** ** The [print] statement *)

Definition isspace (c : ascii) : bool :=
  let n := nat_of_ascii c in ((n =? 32) || ((9 <=? n) && (n <=? 13)))%nat.

Fixpoint last_char (s : string) : option ascii :=
  match s with
  | EmptyString => None
  | String c r =>
      match r with EmptyString => Some c | String _ _ => last_char r end
  end.

(** After an item is written the flag is set unless the item is a string
    ending in white space other than a blank. *)
Definition sets_softspace (o : pyobj) : bool :=
  match o with
  | PyStr s =>
      match last_char s with
      | None => true
      | Some c => negb (isspace c) || Ascii.eqb c " "%char
      end
  | _ => true
  end.

Definition write (s : string) (w : world) : world :=
  mkWorld (stdout w ++ s) (softspace w) (calls w) (subscribed w).

Definition set_softspace (b : bool) (w : world) : world :=
  mkWorld (stdout w) b (calls w) (subscribed w).

(** A call into the library is recorded. *)
Definition log (c : call) : M unit :=
  fun w => (Ok tt, mkWorld (stdout w) (softspace w) (calls w ++ [c]) (subscribed w)).

(** The outcome of a library call enters the program. *)
Definition lift {A} (r : result A) : M A := fun w => (r, w).

(** One item of a [print] statement: a blank first when the flag is set,
    then the text of the item. *)
Definition PRINT_ITEM (o : pyobj) : M unit :=
  fun w =>
    let w1 := if softspace w then write " " (set_softspace false w)
              else set_softspace false w in
    (Ok tt, set_softspace (sets_softspace o) (write (str o) w1)).

Definition PRINT_NEWLINE : M unit :=
  fun w => (Ok tt, set_softspace false (write nl w)).

(** [print o] *)
Definition print (o : pyobj) : M unit := PRINT_ITEM o ;; PRINT_NEWLINE.

(** One item of a [print] statement when the item is an exception: the
    blank is written and the flag cleared before [str(e)] is computed,
    so that they stay when [str(e)] raises; the flag is set after an
    item that is not a string. *)
Definition PRINT_ITEM_exception (e : pyexn) : M unit :=
  fun w =>
    let w1 := if softspace w then write " " (set_softspace false w)
              else set_softspace false w in
    match exception_str e with
    | Ok s => (Ok tt, set_softspace true (write s w1))
    | Raise e' => (Raise e', w1)
    end.

(** [print e] for the exception [e] bound by [except ... as e]. *)
Definition print_exception (e : pyexn) : M unit :=
  PRINT_ITEM_exception e ;; PRINT_NEWLINE.

(** [print o,] *)
Definition print_comma (o : pyobj) : M unit := PRINT_ITEM o.


(** ** The client library

    The script imports the binding as [sr]; the module below keeps the
    name.  The binding itself is not part of the example: its type tags,
    value records, sessions and event loop are modelled here from the
    contract the script relies on. *)
Module sr.

(** Modelled from the spec: the enumeration of type tags (the binding
    that declares it is not among the sources).  The first seventeen
    constructors are the tags the script names; [SR_UNLISTED_T] stands
    for every other tag of the binding (an unknown type, an empty leaf, a
    decimal64, an instance identifier, ...), [code] being its integer. *)
Inductive sr_type_t : Type :=
| SR_CONTAINER_T | SR_CONTAINER_PRESENCE_T | SR_LIST_T
| SR_STRING_T | SR_BOOL_T | SR_ENUM_T
| SR_UINT8_T | SR_UINT16_T | SR_UINT32_T | SR_UINT64_T
| SR_INT8_T | SR_INT16_T | SR_INT32_T | SR_INT64_T
| SR_IDENTITYREF_T | SR_BITS_T | SR_BINARY_T
| SR_UNLISTED_T (code : Z).

Definition sr_type_eq_dec (a b : sr_type_t) : {a = b} + {a <> b}.
Proof. decide equality; apply Z.eq_dec. Defined.

(** [a == b] on type tags. *)
Definition type_eqb (a b : sr_type_t) : bool :=
  if sr_type_eq_dec a b then true else false.

(** Modelled from the spec: the type-tagged payload of a value, one
    constructor per tag, carrying what the accessor of that type reads. *)
Inductive sr_data_t : Type :=
| container_val | container_presence_val | list_val
| string_val (s : string) | bool_val (b : bool) | enum_val (s : string)
| uint8_val (n : Z) | uint16_val (n : Z) | uint32_val (n : Z) | uint64_val (n : Z)
| int8_val (n : Z) | int16_val (n : Z) | int32_val (n : Z) | int64_val (n : Z)
| identityref_val (s : string) | bits_val (s : string) | binary_val (s : string)
| unlisted_val (code : Z).

(** A value record: its path and its tagged payload. *)
Record Val : Type := mkVal { val_xpath : string; val_data : sr_data_t }.

(** [value.xpath()] *)
Definition xpath (value : Val) : string := val_xpath value.

(** [value.type()] *)
Definition type (value : Val) : sr_type_t :=
  match val_data value with
  | container_val => SR_CONTAINER_T
  | container_presence_val => SR_CONTAINER_PRESENCE_T
  | list_val => SR_LIST_T
  | string_val _ => SR_STRING_T
  | bool_val _ => SR_BOOL_T
  | enum_val _ => SR_ENUM_T
  | uint8_val _ => SR_UINT8_T
  | uint16_val _ => SR_UINT16_T
  | uint32_val _ => SR_UINT32_T
  | uint64_val _ => SR_UINT64_T
  | int8_val _ => SR_INT8_T
  | int16_val _ => SR_INT16_T
  | int32_val _ => SR_INT32_T
  | int64_val _ => SR_INT64_T
  | identityref_val _ => SR_IDENTITYREF_T
  | bits_val _ => SR_BITS_T
  | binary_val _ => SR_BINARY_T
  | unlisted_val code => SR_UNLISTED_T code
  end.

(** [value.data()] *)
Definition data (value : Val) : sr_data_t := val_data value.

(** Modelled from the spec: the per-type accessors of a payload.  Each
    returns the payload of its own type as the Python object the binding
    builds for it; asked for another type it raises. *)
Definition wrong_type {A} : M A :=
  raise {| exn_type := RuntimeError; exn_message := Bytes "Data missing" |}.

Definition get_string (d : sr_data_t) : M pyobj :=
  match d with string_val s => ret (PyStr s) | _ => wrong_type end.
Definition get_bool (d : sr_data_t) : M pyobj :=
  match d with bool_val b => ret (PyBool b) | _ => wrong_type end.
Definition get_enum (d : sr_data_t) : M pyobj :=
  match d with enum_val s => ret (PyStr s) | _ => wrong_type end.
Definition get_uint8 (d : sr_data_t) : M pyobj :=
  match d with uint8_val n => ret (py_integer n) | _ => wrong_type end.
Definition get_uint16 (d : sr_data_t) : M pyobj :=
  match d with uint16_val n => ret (py_integer n) | _ => wrong_type end.
Definition get_uint32 (d : sr_data_t) : M pyobj :=
  match d with uint32_val n => ret (py_integer n) | _ => wrong_type end.
Definition get_uint64 (d : sr_data_t) : M pyobj :=
  match d with uint64_val n => ret (py_integer n) | _ => wrong_type end.
Definition get_int8 (d : sr_data_t) : M pyobj :=
  match d with int8_val n => ret (py_integer n) | _ => wrong_type end.
Definition get_int16 (d : sr_data_t) : M pyobj :=
  match d with int16_val n => ret (py_integer n) | _ => wrong_type end.
Definition get_int32 (d : sr_data_t) : M pyobj :=
  match d with int32_val n => ret (py_integer n) | _ => wrong_type end.
Definition get_int64 (d : sr_data_t) : M pyobj :=
  match d with int64_val n => ret (py_integer n) | _ => wrong_type end.
Definition get_identityref (d : sr_data_t) : M pyobj :=
  match d with identityref_val s => ret (PyStr s) | _ => wrong_type end.
Definition get_bits (d : sr_data_t) : M pyobj :=
  match d with bits_val s => ret (PyStr s) | _ => wrong_type end.
Definition get_binary (d : sr_data_t) : M pyobj :=
  match d with binary_val s => ret (PyStr s) | _ => wrong_type end.

(** The collection [get_items] returns: countable and indexable. *)
Definition Vals : Type := list Val.

(** [values.val_cnt()] *)
Definition val_cnt (values : Vals) : nat := List.length values.

(** [values.val(i)]; the binding raises for an index out of range. *)
Definition val (values : Vals) (i : nat) : M Val :=
  match nth_error values i with
  | Some v => ret v
  | None => raise {| exn_type := RuntimeError; exn_message := Bytes "Invalid argument" |}
  end.

(** Modelled from the spec: the objects of the binding, each given by
    what its methods answer.  A subscription object accepts or refuses a
    module name; a session answers a query for a path pattern with a
    collection of values or with an exception, and a subscription object
    can be built from it; a connection yields a session. *)
Record Subscribe_t : Type := mkSubscribe {
  subscribe_answer : string -> result unit
}.

Record Session_t : Type := mkSession {
  items : string -> result Vals;
  subscribe_of : result Subscribe_t
}.

Record Connection_t : Type := mkConnection {
  session_of : result Session_t
}.

(** A change the event loop delivers: the session handed to the
    callback and the event code. *)
Record Notification : Type := mkNotification {
  notif_session : Session_t;
  notif_event : Z
}.

(** The library as the script meets it: the connection constructor, the
    changes that occur to each module while the event loop runs, what
    the loop does when a callback raises (nothing, or stop with an
    exception of its own) and how the loop ends. *)
Record Library : Type := mkLibrary {
  connect : string -> result Connection_t;
  changes : string -> list Notification;
  callback_failed : pyexn -> option pyexn;
  loop_exit : result unit
}.

(** [sr.Connection(app_name)] *)
Definition Connection (lib : Library) (app_name : string) : M Connection_t :=
  log (Call_Connection app_name) ;; lift (connect lib app_name).

(** [sr.Session(conn)] *)
Definition Session (conn : Connection_t) : M Session_t :=
  log Call_Session ;; lift (session_of conn).

(** [sr.Subscribe(sess)] *)
Definition Subscribe (sess : Session_t) : M Subscribe_t :=
  log Call_Subscribe ;; lift (subscribe_of sess).

(** The type of a change callback: session, module name, event, private
    context. *)
Definition callback : Type := Session_t -> string -> Z -> pyobj -> M unit.

(** [subscribe.module_change_subscribe(module_name, cb)]: when the
    library accepts, the module name joins the subscribed ones.  The
    script registers one callback only, which [global_loop] is handed. *)
Definition module_change_subscribe (subscribe : Subscribe_t)
    (module_name : string) (cb : callback) : M unit :=
  log (Call_module_change_subscribe module_name) ;;
  lift (subscribe_answer subscribe module_name) ;;
  fun w => (Ok tt, mkWorld (stdout w) (softspace w) (calls w)
                           (subscribed w ++ [module_name])).

(** [session.get_items(select_xpath)] *)
Definition get_items (session : Session_t) (select_xpath : string) : M Vals :=
  log (Call_get_items select_xpath) ;; lift (items session select_xpath).

(** The callback is run for each change of a module, in order. *)
Fixpoint deliver (lib : Library) (cb : callback) (module_name : string)
    (ns : list Notification) : M unit :=
  match ns with
  | [] => ret tt
  | n :: r =>
      fun w =>
        match cb (notif_session n) module_name (notif_event n) PyNone w with
        | (Ok _, w') => deliver lib cb module_name r w'
        | (Raise e, w') =>
            match callback_failed lib e with
            | None => deliver lib cb module_name r w'
            | Some e' => (Raise e', w')
            end
        end
  end.

(** Modelled from the spec: [sr.global_loop()], the blocking event loop
    of the library.  It delivers the changes of every subscribed module
    to the registered callback and returns, or raises, when the library
    has it end. *)
Definition global_loop (lib : Library) (cb : callback) : M unit :=
  log Call_global_loop ;;
  (fun w => for_each (subscribed w)
              (fun m => deliver lib cb m (changes lib m)) w) ;;
  lift (loop_exit lib).

End sr.

(** ** The value formatter *)

Definition print_value (value : sr.Val) : M unit :=
  print_comma (PyStr (sr.xpath value ++ " ")) ;;
  if sr.type_eqb (sr.type value) sr.SR_CONTAINER_T then
    print (PyStr "(container)")
  else if sr.type_eqb (sr.type value) sr.SR_CONTAINER_PRESENCE_T then
    print (PyStr "(container)")
  else if sr.type_eqb (sr.type value) sr.SR_LIST_T then
    print (PyStr "(list instance)")
  else if sr.type_eqb (sr.type value) sr.SR_STRING_T then
    o <- sr.get_string (sr.data value) ;; s <- str_add "= " o ;; print (PyStr s)
  else if sr.type_eqb (sr.type value) sr.SR_BOOL_T then
    o <- sr.get_bool (sr.data value) ;;
    if truth o then print (PyStr "= true") else print (PyStr "= false")
  else if sr.type_eqb (sr.type value) sr.SR_ENUM_T then
    o <- sr.get_enum (sr.data value) ;; s <- str_add "= " o ;; print (PyStr s)
  else if sr.type_eqb (sr.type value) sr.SR_UINT8_T then
    o <- sr.get_uint8 (sr.data value) ;; print (PyStr ("= " ++ repr o))
  else if sr.type_eqb (sr.type value) sr.SR_UINT16_T then
    o <- sr.get_uint16 (sr.data value) ;; print (PyStr ("= " ++ repr o))
  else if sr.type_eqb (sr.type value) sr.SR_UINT32_T then
    o <- sr.get_uint32 (sr.data value) ;; print (PyStr ("= " ++ repr o))
  else if sr.type_eqb (sr.type value) sr.SR_UINT64_T then
    o <- sr.get_uint64 (sr.data value) ;; print (PyStr ("= " ++ repr o))
  else if sr.type_eqb (sr.type value) sr.SR_INT8_T then
    o <- sr.get_int8 (sr.data value) ;; print (PyStr ("= " ++ repr o))
  else if sr.type_eqb (sr.type value) sr.SR_INT16_T then
    o <- sr.get_int16 (sr.data value) ;; print (PyStr ("= " ++ repr o))
  else if sr.type_eqb (sr.type value) sr.SR_INT32_T then
    o <- sr.get_int32 (sr.data value) ;; print (PyStr ("= " ++ repr o))
  else if sr.type_eqb (sr.type value) sr.SR_INT64_T then
    o <- sr.get_int64 (sr.data value) ;; print (PyStr ("= " ++ repr o))
  else if sr.type_eqb (sr.type value) sr.SR_IDENTITYREF_T then
    o <- sr.get_identityref (sr.data value) ;; print (PyStr ("= " ++ repr o))
  else if sr.type_eqb (sr.type value) sr.SR_BITS_T then
    o <- sr.get_bits (sr.data value) ;; print (PyStr ("= " ++ repr o))
  else if sr.type_eqb (sr.type value) sr.SR_BINARY_T then
    o <- sr.get_binary (sr.data value) ;; print (PyStr ("= " ++ repr o))
  else
    print (PyStr "(unprintable)").

(** ** The configuration dumper *)

Definition print_current_config (session : sr.Session_t) (module_name : string) : M unit :=
  let select_xpath := "/" ++ module_name ++ ":*//*" in
  values <- sr.get_items session select_xpath ;;
  for_each (range (sr.val_cnt values))
    (fun i => value <- sr.val values i ;; print_value value).

(** ** The change callback *)

Definition module_change_cb (sess : sr.Session_t) (module_name : string)
    (event : Z) (private_ctx : pyobj) : M unit :=
  print (PyStr (nl ++ nl ++ " ========== CONFIG HAS CHANGED, CURRENT RUNNING CONFIG: =========="
                ++ nl)) ;;
  print_current_config sess module_name.

(** ** The script body *)

(** [sys.argv[i]] *)
Definition argv_get (argv : list string) (i : nat) : M string :=
  match nth_error argv i with
  | Some a => ret a
  | None => raise {| exn_type := IndexError; exn_message := Bytes "list index out of range" |}
  end.

(** Lines 79 to 83: the choice of the module name. *)
Definition select_module_name (argv : list string) : M string :=
  let module_name := "ietf-interfaces" in
  if (1 <? List.length argv)%nat then
    argv_get argv 1
  else
    print (PyStr (nl ++ "You can pass the module name to be subscribed as the first argument")) ;;
    ret module_name.

(** Lines 97 to 100: the startup read and its handler. *)
Definition startup_read (sess : sr.Session_t) (module_name : string) : M unit :=
  try_except_Exception
    (print_current_config sess module_name)
    (fun e => print_exception e).

(** Lines 85 to 106: the application, once the module name is chosen. *)
Definition run_application (lib : sr.Library) (module_name : string) : M unit :=
  conn <- sr.Connection lib "example_application" ;;
  sess <- sr.Session conn ;;
  subscribe <- sr.Subscribe sess ;;
  sr.module_change_subscribe subscribe module_name module_change_cb ;;
  print (PyStr (nl ++ nl ++ " ========== READING STARTUP CONFIG: ==========" ++ nl)) ;;
  startup_read sess module_name ;;
  print (PyStr (nl ++ nl ++ " ========== STARTUP CONFIG APPLIED AS RUNNING =========="
                ++ nl)) ;;
  sr.global_loop lib module_change_cb ;;
  print (PyStr ("Application exit requested, exiting." ++ nl)).

(** Lines 79 to 106: the body of the outer [try]. *)
Definition script_body (lib : sr.Library) (argv : list string) : M unit :=
  module_name <- select_module_name argv ;;
  run_application lib module_name.

(** Lines 78 to 109: the script. *)
Definition script (lib : sr.Library) (argv : list string) : M unit :=
  try_except_Exception (script_body lib argv) (fun e => print_exception e).

(** ** Vocabulary of the statements *)

(** The tags the formatter names. *)
Definition enumerated : list sr.sr_type_t :=
  [sr.SR_CONTAINER_T; sr.SR_CONTAINER_PRESENCE_T; sr.SR_LIST_T;
   sr.SR_STRING_T; sr.SR_BOOL_T; sr.SR_ENUM_T;
   sr.SR_UINT8_T; sr.SR_UINT16_T; sr.SR_UINT32_T; sr.SR_UINT64_T;
   sr.SR_INT8_T; sr.SR_INT16_T; sr.SR_INT32_T; sr.SR_INT64_T;
   sr.SR_IDENTITYREF_T; sr.SR_BITS_T; sr.SR_BINARY_T].

(** What the formatter writes for a value when it starts on a fresh
    line of an empty output. *)
Definition formatted_line (value : sr.Val) : string :=
  stdout (snd (print_value value world0)).

(** The blank the [print] statement puts before an item when the flag of
    the file is set. *)
Definition blank (w : world) : string :=
  if softspace w then " " else EmptyString.

(** The world after [text] has been written by complete [print]
    statements. *)
Definition printed (text : string) (w : world) : world :=
  mkWorld (stdout w ++ blank w ++ text) false (calls w) (subscribed w).

(** The world after the blank of a [print] statement has been written
    and its flag cleared, the item itself having failed. *)
Definition blanked (w : world) : world :=
  mkWorld (stdout w ++ blank w) false (calls w) (subscribed w).

(** The world after a library call has been recorded. *)
Definition logged (c : call) (w : world) : world :=
  mkWorld (stdout w) (softspace w) (calls w ++ [c]) (subscribed w).

(** The text made of lines written one after the other. *)
Definition text_of_lines (lines : list string) : string :=
  fold_right append EmptyString lines.

(** The world after the formatter has run on each value in turn. *)
Definition formatted_in_turn (values : list sr.Val) (w : world) : world :=
  fold_left (fun w' value => snd (print_value value w')) values w.

(** The header the change callback prints, with the end of its line. *)
Definition change_header : string :=
  nl ++ nl ++ " ========== CONFIG HAS CHANGED, CURRENT RUNNING CONFIG: =========="
  ++ nl ++ nl.

(** A call names the module [m] when it subscribes to [m] or queries
    the pattern of [m]; the other calls name no module. *)
Definition names_module (m : string) (c : call) : Prop :=
  match c with
  | Call_module_change_subscribe m' => m' = m
  | Call_get_items x => x = "/" ++ m ++ ":*//*"
  | _ => True
  end.

(** The calls of a startup for the module [m], up to the startup read. *)
Definition startup_calls (m : string) : list call :=
  [Call_Connection "example_application"; Call_Session; Call_Subscribe;
   Call_module_change_subscribe m; Call_get_items ("/" ++ m ++ ":*//*")].

(** The invariant of a run for the module [m]: every call so far names
    [m], every subscription is for [m], and the calls begin with [pre]. *)
Definition keeps (m : string) (pre : list call) (w : world) : Prop :=
  Forall (names_module m) (calls w) /\
  Forall (eq m) (subscribed w) /\
  exists later, calls w = (pre ++ later)%list.

(** The world in which the startup read begins: [text] written, the
    four calls of the setup made, the module subscribed. *)
Definition ready (m text : string) : world :=
  mkWorld text false
    [Call_Connection "example_application"; Call_Session; Call_Subscribe;
     Call_module_change_subscribe m]
    [m].

(** Lines 102 to 106: what follows the startup read. *)
Definition after_startup_read (lib : sr.Library) : M unit :=
  print (PyStr (nl ++ nl ++ " ========== STARTUP CONFIG APPLIED AS RUNNING =========="
                ++ nl)) ;;
  sr.global_loop lib module_change_cb ;;
  print (PyStr ("Application exit requested, exiting." ++ nl)).

Definition preserves {A} (P : world -> Prop) (c : M A) : Prop :=
  forall w, P w -> P (snd (c w)).

(** ** Sample inputs *)

Definition sample_unlisted : sr.Val :=
  sr.mkVal "/ietf-interfaces:interfaces/interface/speed" (sr.unlisted_val 11).

Definition sample_bool : sr.Val :=
  sr.mkVal "/ietf-interfaces:interfaces/interface/enabled" (sr.bool_val true).

Definition sample_container : sr.Val :=
  sr.mkVal "/ietf-interfaces:interfaces" sr.container_val.

Definition sample_presence : sr.Val :=
  sr.mkVal "/ietf-interfaces:interfaces" sr.container_presence_val.

Definition sample_session : sr.Session_t :=
  sr.mkSession (fun _ => Ok [sample_container; sample_bool; sample_bool; sample_unlisted])
               (Ok (sr.mkSubscribe (fun _ => Ok tt))).

Definition sample_library : sr.Library :=
  sr.mkLibrary (fun _ => Ok (sr.mkConnection (Ok sample_session)))
               (fun _ => [sr.mkNotification sample_session 0])
               (fun _ => None) (Ok tt).

(** A session whose query fails with an error of the library. *)
Definition module_not_found : pyexn :=
  {| exn_type := RuntimeError; exn_message := Bytes "Unknown module" |}.

Definition failing_session : sr.Session_t :=
  sr.mkSession (fun _ => Raise module_not_found)
               (Ok (sr.mkSubscribe (fun _ => Ok tt))).


(** A session whose query fails with an error whose message is the
    [unicode] object of one accented letter. *)
Definition accented_failure : pyexn :=
  {| exn_type := RuntimeError; exn_message := Unicode [233%N] |}.



(** A library whose connection fails with the same error. *)
Definition unspeakable_library : sr.Library :=
  sr.mkLibrary (fun _ => Raise accented_failure) (fun _ => []) (fun _ => None) (Ok tt).




Definition sample_name : sr.Val :=
  sr.mkVal "/ietf-interfaces:interfaces/interface/name" (sr.string_val "eth0").

(** ** Vocabulary of the further properties *)

(** A printable ASCII character other than the single quote and the
    backslash: [repr] leaves it as it is. *)
Definition plain_char (c : ascii) : bool :=
  let n := nat_of_ascii c in
  ((32 <=? n) && (n <? 127))%nat && negb (Ascii.eqb c squote)
  && negb (Ascii.eqb c backslash).

Fixpoint plain (s : string) : bool :=
  match s with
  | EmptyString => true
  | String c r => plain_char c && plain r
  end.

(** The payloads read by the eight integer accessors. *)
Definition integer_payloads (n : Z) : list sr.sr_data_t :=
  [sr.uint8_val n; sr.uint16_val n; sr.uint32_val n; sr.uint64_val n;
   sr.int8_val n; sr.int16_val n; sr.int32_val n; sr.int64_val n].

(** The hint printed when no module name is given, and the banners of
    the script, each with the end of its line. *)
Definition usage_hint : string :=
  nl ++ "You can pass the module name to be subscribed as the first argument" ++ nl.

Definition reading_banner : string :=
  nl ++ nl ++ " ========== READING STARTUP CONFIG: ==========" ++ nl ++ nl.

Definition applied_banner : string :=
  nl ++ nl ++ " ========== STARTUP CONFIG APPLIED AS RUNNING ==========" ++ nl ++ nl.

Definition exit_line : string :=
  "Application exit requested, exiting." ++ nl ++ nl.

(** The setup of the application for the module [m] raises [e]: at the
    connection, at the session, at the subscription object or at the
    subscription itself, the steps before it having succeeded. *)
Inductive setup_raises (lib : sr.Library) (m : string) (e : pyexn) : Prop :=
| connection_raises :
    sr.connect lib "example_application" = Raise e -> setup_raises lib m e
| session_raises (conn : sr.Connection_t) :
    sr.connect lib "example_application" = Ok conn ->
    sr.session_of conn = Raise e -> setup_raises lib m e
| subscribe_raises (conn : sr.Connection_t) (sess : sr.Session_t) :
    sr.connect lib "example_application" = Ok conn ->
    sr.session_of conn = Ok sess ->
    sr.subscribe_of sess = Raise e -> setup_raises lib m e
| subscription_refused (conn : sr.Connection_t) (sess : sr.Session_t)
    (subscribe : sr.Subscribe_t) :
    sr.connect lib "example_application" = Ok conn ->
    sr.session_of conn = Ok sess ->
    sr.subscribe_of sess = Ok subscribe ->
    sr.subscribe_answer subscribe m = Raise e -> setup_raises lib m e.

(** ** Further sample inputs *)

Definition sample_type : sr.Val :=
  sr.mkVal "/ietf-interfaces:interfaces/interface/type"
           (sr.identityref_val "ethernetCsmacd").

Definition sample_mtu : sr.Val :=
  sr.mkVal "/ietf-ip:ipv4/mtu" (sr.uint16_val 1500).

Definition empty_session : sr.Session_t :=
  sr.mkSession (fun _ => Ok []) (Ok (sr.mkSubscribe (fun _ => Ok tt))).

Definition quiet_library : sr.Library :=
  sr.mkLibrary (fun _ => Ok (sr.mkConnection (Ok sample_session)))
               (fun _ => []) (fun _ => None) (Ok tt).

Definition cannot_connect : pyexn :=
  {| exn_type := RuntimeError; exn_message := Bytes "Cannot connect to sysrepo" |}.

Definition unreachable_library : sr.Library :=
  sr.mkLibrary (fun _ => Raise cannot_connect) (fun _ => []) (fun _ => None) (Ok tt).

(** * Properties *)

(** ** Strings and the [print] statement *)

Lemma append_nil_r (s : string) : s ++ EmptyString = s.
Proof. induction s as [|c s IH]; simpl; [reflexivity | now rewrite IH]. Qed.

Lemma append_assoc (a b c : string) : (a ++ b) ++ c = a ++ (b ++ c).
Proof. induction a as [|x a IH]; simpl; [reflexivity | now rewrite IH]. Qed.


Ltac norm_append := repeat rewrite append_assoc; cbn [append].

Lemma last_char_snoc (x : string) (c : ascii) :
  last_char (x ++ String c EmptyString) = Some c.
Proof.
  induction x as [|a x IH]; [reflexivity|].
  cbn [append last_char]. rewrite IH.
  destruct x; reflexivity.
Qed.

Lemma PRINT_ITEM_run (o : pyobj) (w : world) :
  PRINT_ITEM o w =
  (Ok tt, mkWorld (stdout w ++ blank w ++ str o) (sets_softspace o)
                  (calls w) (subscribed w)).
Proof.
  destruct w as [out sp cs ss]; destruct sp;
    unfold PRINT_ITEM, write, set_softspace, blank; cbn;
    norm_append; rewrite ?append_nil_r; reflexivity.
Qed.

Lemma print_run (o : pyobj) (w : world) :
  print o w = (Ok tt, printed (str o ++ nl) w).
Proof.
  unfold print, bind. rewrite PRINT_ITEM_run.
  unfold PRINT_NEWLINE, printed, write, set_softspace; cbn.
  now norm_append.
Qed.

Lemma print_comma_path (x : string) (w : world) :
  print_comma (PyStr (x ++ " ")) w =
  (Ok tt, mkWorld (stdout w ++ blank w ++ x ++ " ") true (calls w) (subscribed w)).
Proof.
  unfold print_comma. rewrite PRINT_ITEM_run.
  unfold sets_softspace. rewrite last_char_snoc. reflexivity.
Qed.

Lemma print_exception_run (e : pyexn) (s : string) (w : world) :
  exception_str e = Ok s ->
  print_exception e w = (Ok tt, printed (s ++ nl) w).
Proof.
  intro H. unfold print_exception, bind, PRINT_ITEM_exception. rewrite H.
  destruct w as [out sp cs ss]; destruct sp;
    unfold PRINT_NEWLINE, printed, write, set_softspace, blank; cbn;
    norm_append; reflexivity.
Qed.

Lemma print_exception_raise (e e' : pyexn) (w : world) :
  exception_str e = Raise e' ->
  print_exception e w = (Raise e', blanked w).
Proof.
  intro H. unfold print_exception, bind, PRINT_ITEM_exception. rewrite H.
  destruct w as [out sp cs ss]; destruct sp;
    unfold blanked, write, set_softspace, blank; cbn;
    rewrite ?append_nil_r; reflexivity.
Qed.



Ltac eval_type_tests :=
  repeat match goal with
  | |- context [sr.type_eqb ?a ?b] =>
      let v := eval vm_compute in (sr.type_eqb a b) in
      change (sr.type_eqb a b) with v
  end.

Ltac run_print_value :=
  cbv [print_value bind]; rewrite ?print_comma_path;
  cbn [sr.type sr.data sr.xpath sr.val_data sr.val_xpath];
  eval_type_tests; cbv beta iota;
  cbv [sr.get_string sr.get_bool sr.get_enum
       sr.get_uint8 sr.get_uint16 sr.get_uint32 sr.get_uint64
       sr.get_int8 sr.get_int16 sr.get_int32 sr.get_int64
       sr.get_identityref sr.get_bits sr.get_binary str_add ret truth];
  rewrite ?print_run.

Lemma print_value_run (value : sr.Val) (w : world) :
  print_value value w = (Ok tt, printed (formatted_line value) w).
Proof.
  destruct value as [x d]. unfold formatted_line.
  destruct d; try destruct b; run_print_value.
  all: unfold printed, blank; cbn; norm_append; reflexivity.
Qed.

Ltac without_newline t :=
  lazymatch t with
  | nl => constr:(EmptyString)
  | String ?c ?r => let r' := without_newline r in constr:(String c r')
  | append ?a nl => constr:(a)
  | append ?a ?r => let r' := without_newline r in constr:(append a r')
  end.

(** Every formatted line starts with the path and a blank and ends the
    line. *)
Lemma formatted_line_shape (value : sr.Val) :
  exists body, formatted_line value = sr.xpath value ++ " " ++ body ++ nl.
Proof.
  destruct value as [x d]. unfold formatted_line.
  destruct d; try destruct b; run_print_value;
    unfold printed, blank; cbn; norm_append.
  all: lazymatch goal with
       | |- exists body, ?x ++ String " " ?rest = _ =>
           let body := without_newline rest in
           exists body; cbn; norm_append; reflexivity
       end.
Qed.

(** ** The formatter *)

(** C3: a value whose tag is none of the enumerated ones is formatted as
    its path followed by the marker "(unprintable)", and the formatter
    returns normally. *)
Theorem unlisted_tag_unprintable (value : sr.Val) (w : world) :
  ~ In (sr.type value) enumerated ->
  print_value value w =
  (Ok tt, printed (sr.xpath value ++ "  (unprintable)" ++ nl) w).
Proof.
  intro H. rewrite print_value_run. do 2 f_equal.
  destruct value as [x d]; destruct d;
    try (exfalso; apply H; cbn; tauto).
  unfold formatted_line. run_print_value.
  unfold printed, blank; cbn; norm_append; reflexivity.
Qed.

Lemma unlisted_tag_unprintable_witness :
  ~ In (sr.type sample_unlisted) enumerated /\
  stdout (snd (print_value sample_unlisted world0)) =
  "/ietf-interfaces:interfaces/interface/speed  (unprintable)" ++ nl.
Proof.
  assert (H : ~ In (sr.type sample_unlisted) enumerated)
    by (cbn; intuition discriminate).
  split; [exact H|].
  rewrite (unlisted_tag_unprintable sample_unlisted world0 H).
  reflexivity.
Defined.

(** C4: a value tagged [SR_BOOL_T] carries a boolean payload, and the
    formatter writes the token "true" for a true payload and the token
    "false" for a false one, after the path and the equals sign; it
    writes nothing else for the payload. *)
Theorem bool_tokens (value : sr.Val) (w : world) :
  sr.type value = sr.SR_BOOL_T ->
  exists b : bool,
    sr.data value = sr.bool_val b /\
    print_value value w =
    (Ok tt, printed (sr.xpath value ++ "  = " ++ (if b then "true" else "false") ++ nl) w).
Proof.
  intro H. destruct value as [x d]; destruct d; try discriminate H.
  exists b. split; [reflexivity|].
  rewrite print_value_run. do 2 f_equal.
  unfold formatted_line. destruct b; run_print_value;
    unfold printed, blank; cbn; norm_append; reflexivity.
Qed.

Lemma bool_tokens_witness :
  sr.type sample_bool = sr.SR_BOOL_T /\
  stdout (snd (print_value sample_bool world0)) =
  "/ietf-interfaces:interfaces/interface/enabled  = true" ++ nl.
Proof.
  split; [reflexivity|].
  destruct (bool_tokens sample_bool world0 eq_refl) as [b [Hb Hrun]].
  rewrite Hrun. inversion Hb. reflexivity.
Defined.

(** C5: for a value whose tag is one of the enumerated ones the
    formatter returns normally, and what it writes is not empty and
    holds the path of the value. *)
Theorem enumerated_tag_prints_path (value : sr.Val) (w : world) :
  In (sr.type value) enumerated ->
  exists text : string,
    print_value value w =
    (Ok tt, mkWorld (stdout w ++ text) false (calls w) (subscribed w)) /\
    text <> EmptyString /\
    exists pre post : string, text = pre ++ sr.xpath value ++ post.
Proof.
  intros _. destruct (formatted_line_shape value) as [body Hshape].
  exists (blank w ++ formatted_line value). split; [apply print_value_run|].
  rewrite Hshape. split.
  - unfold blank. destruct (softspace w), (sr.xpath value); discriminate.
  - exists (blank w), (" " ++ body ++ nl). reflexivity.
Qed.

Lemma enumerated_tag_prints_path_witness :
  In (sr.type sample_name) enumerated /\
  fst (print_value sample_name world0) = Ok tt.
Proof.
  assert (H : In (sr.type sample_name) enumerated) by (cbn; tauto).
  split; [exact H|].
  destruct (enumerated_tag_prints_path sample_name world0 H) as [text [Hrun _]].
  rewrite Hrun. reflexivity.
Defined.

(** C9: two values with the same path, one tagged [SR_CONTAINER_T] and
    the other [SR_CONTAINER_PRESENCE_T], are formatted alike: the path
    followed by "(container)". *)
Theorem containers_print_alike (value1 value2 : sr.Val) (w : world) :
  sr.xpath value1 = sr.xpath value2 ->
  sr.type value1 = sr.SR_CONTAINER_T ->
  sr.type value2 = sr.SR_CONTAINER_PRESENCE_T ->
  print_value value1 w = print_value value2 w /\
  print_value value1 w =
  (Ok tt, printed (sr.xpath value1 ++ "  (container)" ++ nl) w).
Proof.
  intros Hx H1 H2.
  destruct value1 as [x1 d1], value2 as [x2 d2]; cbn in Hx; subst x2.
  destruct d1; try discriminate H1. destruct d2; try discriminate H2.
  rewrite !print_value_run. unfold formatted_line.
  split; do 2 f_equal; run_print_value;
    unfold printed, blank; cbn; norm_append; reflexivity.
Qed.

Lemma containers_print_alike_witness :
  sr.xpath sample_container = sr.xpath sample_presence /\
  sr.type sample_container = sr.SR_CONTAINER_T /\
  sr.type sample_presence = sr.SR_CONTAINER_PRESENCE_T /\
  print_value sample_container world0 = print_value sample_presence world0.
Proof.
  split; [reflexivity|]. split; [reflexivity|]. split; [reflexivity|].
  exact (proj1 (containers_print_alike sample_container sample_presence world0
                  eq_refl eq_refl eq_refl)).
Defined.

(** ** The dumper *)

Lemma get_items_run (session : sr.Session_t) (select_xpath : string) (w : world) :
  sr.get_items session select_xpath w =
  (sr.items session select_xpath, logged (Call_get_items select_xpath) w).
Proof. reflexivity. Qed.

(** The loop over [range(values.val_cnt())], started at any index. *)
Lemma dump_loop (done rest : list sr.Val) (w : world) :
  for_each (seq (List.length done) (List.length rest))
    (fun i => value <- sr.val (done ++ rest)%list i ;; print_value value) w =
  (Ok tt, formatted_in_turn rest w).
Proof.
  revert done w. induction rest as [|value rest IH]; intros done w; [reflexivity|].
  cbn [List.length seq for_each formatted_in_turn fold_left].
  unfold bind at 1. unfold bind at 1. unfold sr.val at 1.
  rewrite nth_error_app2 by lia. rewrite Nat.sub_diag. cbn [nth_error ret].
  rewrite print_value_run. cbn [snd].
  replace (done ++ value :: rest)%list with ((done ++ [value]) ++ rest)%list
    by (rewrite <- app_assoc; reflexivity).
  replace (S (List.length done)) with (List.length (done ++ [value])%list)
    by (rewrite length_app; cbn; lia).
  apply IH.
Qed.

Lemma print_current_config_run (session : sr.Session_t) (module_name : string) (w : world) :
  print_current_config session module_name w =
  let select_xpath := "/" ++ module_name ++ ":*//*" in
  match sr.items session select_xpath with
  | Ok values => (Ok tt, formatted_in_turn values (logged (Call_get_items select_xpath) w))
  | Raise e => (Raise e, logged (Call_get_items select_xpath) w)
  end.
Proof.
  unfold print_current_config. cbv zeta. unfold bind at 1.
  rewrite get_items_run.
  destruct (sr.items session _) as [values|e]; [|reflexivity].
  apply (dump_loop [] values).
Qed.

Lemma formatted_in_turn_fresh (values : list sr.Val) (w : world) :
  softspace w = false ->
  formatted_in_turn values w =
  mkWorld (stdout w ++ text_of_lines (map formatted_line values)) false
          (calls w) (subscribed w).
Proof.
  revert w. induction values as [|value values IH]; intros w Hw.
  - destruct w as [out sp cs ss]; cbn in *; subst sp.
    now rewrite append_nil_r.
  - cbn [formatted_in_turn fold_left map text_of_lines fold_right].
    rewrite print_value_run. cbn [snd].
    fold (formatted_in_turn values (printed (formatted_line value) w)).
    rewrite IH by reflexivity.
    unfold printed, blank; rewrite Hw; cbn.
    now norm_append.
Qed.

Lemma formatted_in_turn_text (values : list sr.Val) (w : world) :
  stdout (formatted_in_turn values w) =
  stdout w ++ match values with [] => EmptyString | _ :: _ => blank w end
           ++ text_of_lines (map formatted_line values).
Proof.
  destruct values as [|value values]; [cbn; now rewrite append_nil_r|].
  cbn [formatted_in_turn fold_left map text_of_lines fold_right].
  rewrite print_value_run. cbn [snd].
  fold (formatted_in_turn values (printed (formatted_line value) w)).
  rewrite formatted_in_turn_fresh by reflexivity.
  unfold printed; cbn. now norm_append.
Qed.

Lemma formatted_in_turn_calls (values : list sr.Val) (w : world) :
  calls (formatted_in_turn values w) = calls w /\
  subscribed (formatted_in_turn values w) = subscribed w.
Proof.
  revert w. induction values as [|value values IH]; intro w; [split; reflexivity|].
  cbn [formatted_in_turn fold_left]. rewrite print_value_run. cbn [snd].
  fold (formatted_in_turn values (printed (formatted_line value) w)).
  destruct (IH (printed (formatted_line value) w)) as [-> ->]. split; reflexivity.
Qed.

(** C1: the one query the dumper makes of the session is for the
    pattern made of a slash, the module name and the text ":*//*". *)
Theorem select_xpath_pattern (session : sr.Session_t) (m : string) (w : world) :
  calls (snd (print_current_config session m w)) =
  (calls w ++ [Call_get_items ("/" ++ m ++ ":*//*")])%list.
Proof.
  rewrite print_current_config_run. cbv zeta.
  destruct (sr.items session _) as [values|e]; cbn [snd]; [|reflexivity].
  now rewrite (proj1 (formatted_in_turn_calls _ _)).
Qed.

(** C2: when the query returns a collection, the dumper returns
    normally after running the formatter on each value in the order of
    the collection; the text it writes is the formatted lines of the
    values one after the other, each line made of the path of its value
    and ended by a newline, and there are as many lines as values. *)
Theorem dump_is_pass_through (session : sr.Session_t) (m : string)
    (values : sr.Vals) (w : world) :
  sr.items session ("/" ++ m ++ ":*//*") = Ok values ->
  let lines := map formatted_line values in
  print_current_config session m w =
    (Ok tt, formatted_in_turn values (logged (Call_get_items ("/" ++ m ++ ":*//*")) w)) /\
  stdout (snd (print_current_config session m w)) =
    stdout w ++ match values with [] => EmptyString | _ :: _ => blank w end
             ++ text_of_lines lines /\
  Forall2 (fun value line => exists body, line = sr.xpath value ++ " " ++ body ++ nl)
          values lines /\
  List.length lines = sr.val_cnt values.
Proof.
  intros Hitems lines.
  rewrite print_current_config_run. cbv zeta. rewrite Hitems. cbn [snd].
  split; [reflexivity|]. split; [rewrite formatted_in_turn_text; reflexivity|]. split.
  - subst lines. clear Hitems.
    induction values as [|value values IH]; constructor.
    + apply formatted_line_shape.
    + apply IH.
  - apply length_map.
Qed.

Lemma dump_is_pass_through_witness :
  sr.items sample_session ("/" ++ "ietf-interfaces" ++ ":*//*") =
    Ok [sample_container; sample_bool; sample_bool; sample_unlisted] /\
  stdout (snd (print_current_config sample_session "ietf-interfaces" world0)) =
    text_of_lines
      (map formatted_line [sample_container; sample_bool; sample_bool; sample_unlisted]).
Proof.
  split; [reflexivity|].
  exact (proj1 (proj2 (dump_is_pass_through sample_session "ietf-interfaces"
                         [sample_container; sample_bool; sample_bool; sample_unlisted]
                         world0 eq_refl))).
Defined.

(** ** The change callback *)

(** On a fresh line the dumper writes the same text whatever was
    written before. *)
Lemma print_current_config_fresh (session : sr.Session_t) (m : string) (w : world) :
  softspace w = false ->
  fst (print_current_config session m w) = fst (print_current_config session m world0) /\
  stdout (snd (print_current_config session m w)) =
  stdout w ++ stdout (snd (print_current_config session m world0)).
Proof.
  intro Hw. rewrite !print_current_config_run. cbv zeta.
  destruct (sr.items session _) as [values|e]; cbn [fst snd].
  - split; [reflexivity|].
    rewrite !formatted_in_turn_fresh by (try exact Hw; reflexivity).
    reflexivity.
  - split; [reflexivity|]. cbn. now rewrite append_nil_r.
Qed.

(** C7: whatever the event and the private context, the callback prints
    its header and then does what the dumper does for the same session
    and module name: it ends as the dumper ends, and what it writes is
    the header followed by what the dumper writes. *)
Theorem callback_redumps (sess : sr.Session_t) (module_name : string)
    (event : Z) (private_ctx : pyobj) (w : world) :
  module_change_cb sess module_name event private_ctx w =
    print_current_config sess module_name (printed change_header w) /\
  fst (module_change_cb sess module_name event private_ctx w) =
    fst (print_current_config sess module_name world0) /\
  stdout (snd (module_change_cb sess module_name event private_ctx w)) =
    stdout w ++ blank w ++ change_header
    ++ stdout (snd (print_current_config sess module_name world0)).
Proof.
  assert (Hrun : module_change_cb sess module_name event private_ctx w =
                 print_current_config sess module_name (printed change_header w)).
  { unfold module_change_cb, bind. rewrite print_run. cbn [str].
    unfold change_header. now norm_append. }
  rewrite Hrun. split; [reflexivity|].
  destruct (print_current_config_fresh sess module_name (printed change_header w) eq_refl)
    as [Hfst Hout].
  split; [exact Hfst|]. rewrite Hout. cbn [printed stdout]. now norm_append.
Qed.

(** ** The script *)

(** The choice of the module name looks at the second entry of the
    argument list only. *)
Lemma select_module_name_nth (argv : list string) :
  select_module_name argv =
  match nth_error argv 1 with
  | Some a => ret a
  | None =>
      print (PyStr (nl ++ "You can pass the module name to be subscribed as the first argument")) ;;
      ret "ietf-interfaces"
  end.
Proof. destruct argv as [|a0 [|a1 rest]]; reflexivity. Qed.

(** C10: two argument lists that agree on their second entry, or both
    lack it, select the same module name, and the script behaves the
    same on both: entries past the second are not looked at. *)
Theorem module_name_from_first_argument (lib : sr.Library)
    (argv1 argv2 : list string) (w : world) :
  nth_error argv1 1 = nth_error argv2 1 ->
  select_module_name argv1 w = select_module_name argv2 w /\
  script lib argv1 w = script lib argv2 w.
Proof.
  intro H. unfold script, script_body.
  rewrite !select_module_name_nth, H. split; reflexivity.
Qed.

Lemma module_name_from_first_argument_witness :
  nth_error ["example.py"; "ietf-interfaces"; "--verbose"] 1 =
    nth_error ["other.py"; "ietf-interfaces"] 1 /\
  fst (select_module_name ["example.py"; "ietf-interfaces"; "--verbose"] world0) =
    fst (select_module_name ["other.py"; "ietf-interfaces"] world0).
Proof.
  split; [reflexivity|].
  now rewrite (proj1 (module_name_from_first_argument
                        sample_library
                        ["example.py"; "ietf-interfaces"; "--verbose"]
                        ["other.py"; "ietf-interfaces"] world0 eq_refl)).
Defined.

(** *** Invariants of a run *)

Lemma snd_bind {A B} (P : world -> Prop) (c : M A) (k : A -> M B) (w : world) :
  P (snd (c w)) -> (forall a, preserves P (k a)) -> P (snd (bind c k w)).
Proof.
  unfold bind. intros Hc Hk.
  destruct (c w) as [[a|e] w1]; cbn in *; [apply Hk|]; exact Hc.
Qed.

Lemma preserves_bind {A B} (P : world -> Prop) (c : M A) (k : A -> M B) :
  preserves P c -> (forall a, preserves P (k a)) -> preserves P (bind c k).
Proof. intros Hc Hk w Hw. apply snd_bind; auto. Qed.

Lemma snd_try {A} (P : world -> Prop) (c : M A) (h : pyexn -> M A) (w : world) :
  P (snd (c w)) -> (forall e, preserves P (h e)) ->
  P (snd (try_except_Exception c h w)).
Proof.
  unfold try_except_Exception. intros Hc Hh.
  destruct (c w) as [[a|e] w1]; cbn in *; [exact Hc|].
  destruct (isinstance_Exception e); [apply Hh|]; exact Hc.
Qed.

Lemma try_bind_ok {A B} (c : M A) (k : A -> M B) (h : pyexn -> M B)
    (w w1 : world) (a : A) :
  c w = (Ok a, w1) ->
  try_except_Exception (bind c k) h w = try_except_Exception (k a) h w1.
Proof. intro H. unfold try_except_Exception, bind. now rewrite H. Qed.

Section Run.

Variables (m : string) (pre : list call).

Lemma preserves_lift {A} (r : result A) : preserves (keeps m pre) (lift r).
Proof. intros w H; exact H. Qed.

Lemma preserves_print (o : pyobj) : preserves (keeps m pre) (print o).
Proof. intros w H. rewrite print_run. exact H. Qed.

Lemma preserves_print_exception (e : pyexn) :
  preserves (keeps m pre) (print_exception e).
Proof.
  intros w H. destruct (exception_str e) as [s|e'] eqn:He.
  - rewrite (print_exception_run e s w He). exact H.
  - rewrite (print_exception_raise e e' w He). exact H.
Qed.

Lemma preserves_log (c : call) :
  names_module m c -> preserves (keeps m pre) (log c).
Proof.
  intros Hc w (Hcalls & Hsubs & later & Hpre). cbn. split; [|split].
  - apply Forall_app; split; [exact Hcalls | constructor; [exact Hc | constructor]].
  - exact Hsubs.
  - exists (later ++ [c])%list. cbn. rewrite Hpre. now rewrite app_assoc.
Qed.

Lemma preserves_print_current_config (sess : sr.Session_t) :
  preserves (keeps m pre) (print_current_config sess m).
Proof.
  intros w H. rewrite print_current_config_run. cbv zeta.
  pose proof (preserves_log (Call_get_items ("/" ++ m ++ ":*//*")) eq_refl w H) as Hlog.
  destruct (sr.items sess _) as [values|e]; cbn [snd]; [|exact Hlog].
  unfold keeps. destruct (formatted_in_turn_calls values
    (logged (Call_get_items ("/" ++ m ++ ":*//*")) w)) as [-> ->].
  exact Hlog.
Qed.

Lemma preserves_module_change_cb (sess : sr.Session_t) (event : Z) (ctx : pyobj) :
  preserves (keeps m pre) (module_change_cb sess m event ctx).
Proof.
  unfold module_change_cb. apply preserves_bind; [apply preserves_print|].
  intros _. apply preserves_print_current_config.
Qed.

Lemma preserves_deliver (lib : sr.Library) (ns : list sr.Notification) :
  preserves (keeps m pre) (sr.deliver lib module_change_cb m ns).
Proof.
  induction ns as [|n ns IH]; intros w H; [exact H|].
  cbn [sr.deliver].
  pose proof (preserves_module_change_cb (sr.notif_session n) (sr.notif_event n)
                PyNone w H) as Hcb.
  destruct (module_change_cb _ m _ PyNone w) as [[u|e] w1]; cbn [snd] in Hcb.
  - now apply IH.
  - destruct (sr.callback_failed lib e); [exact Hcb | now apply IH].
Qed.

Lemma preserves_deliveries (lib : sr.Library) (modules : list string) :
  Forall (eq m) modules ->
  preserves (keeps m pre)
    (for_each modules (fun m' => sr.deliver lib module_change_cb m' (sr.changes lib m'))).
Proof.
  induction 1 as [|m' modules Hm Hall IH]; [intros w H; exact H|].
  subst m'. cbn [for_each]. apply preserves_bind; [apply preserves_deliver|].
  intros _. exact IH.
Qed.

Lemma preserves_global_loop (lib : sr.Library) :
  preserves (keeps m pre) (sr.global_loop lib module_change_cb).
Proof.
  unfold sr.global_loop.
  apply preserves_bind; [apply preserves_log; exact I|]. intros _.
  apply preserves_bind; [|intros _; apply preserves_lift].
  intros w H. apply preserves_deliveries; [apply H | exact H].
Qed.

Lemma preserves_startup_read (sess : sr.Session_t) :
  preserves (keeps m pre) (startup_read sess m).
Proof.
  intros w H. unfold startup_read. apply snd_try.
  - now apply preserves_print_current_config.
  - intro e. apply preserves_print_exception.
Qed.

Lemma preserves_after_startup_read (lib : sr.Library) :
  preserves (keeps m pre) (after_startup_read lib).
Proof.
  unfold after_startup_read.
  apply preserves_bind; [apply preserves_print|]. intros _.
  apply preserves_bind; [apply preserves_global_loop|]. intros _.
  apply preserves_print.
Qed.

Lemma preserves_module_change_subscribe (subscribe : sr.Subscribe_t) :
  preserves (keeps m pre) (sr.module_change_subscribe subscribe m module_change_cb).
Proof.
  unfold sr.module_change_subscribe.
  apply preserves_bind; [apply preserves_log; reflexivity|]. intros _.
  apply preserves_bind; [apply preserves_lift|]. intros _.
  intros w (Hcalls & Hsubs & Hpre). cbn. split; [exact Hcalls|]. split; [|exact Hpre].
  apply Forall_app; split; [exact Hsubs | constructor; [reflexivity | constructor]].
Qed.

Lemma preserves_run_application (lib : sr.Library) :
  preserves (keeps m pre) (run_application lib m).
Proof.
  unfold run_application.
  apply preserves_bind.
  { apply preserves_bind; [apply preserves_log; exact I | intros _; apply preserves_lift]. }
  intro conn. apply preserves_bind.
  { apply preserves_bind; [apply preserves_log; exact I | intros _; apply preserves_lift]. }
  intro sess. apply preserves_bind.
  { apply preserves_bind; [apply preserves_log; exact I | intros _; apply preserves_lift]. }
  intro subscribe. apply preserves_bind; [apply preserves_module_change_subscribe|].
  intros _. apply preserves_bind; [apply preserves_print|].
  intros _. apply preserves_bind; [apply preserves_startup_read|].
  intros _. apply preserves_after_startup_read.
Qed.

End Run.

(** *** The run of the script *)

Lemma select_module_name_run (argv : list string) (w : world) :
  select_module_name argv w =
  match nth_error argv 1 with
  | Some a => (Ok a, w)
  | None =>
      (Ok "ietf-interfaces",
       printed (nl ++ "You can pass the module name to be subscribed as the first argument"
                ++ nl) w)
  end.
Proof.
  rewrite select_module_name_nth. destruct (nth_error argv 1); [reflexivity|].
  unfold bind. rewrite print_run. cbn [str ret]. now norm_append.
Qed.

Ltac library_step H :=
  erewrite try_bind_ok
    by (cbv [sr.Connection sr.Session sr.Subscribe sr.module_change_subscribe
             bind log lift];
        rewrite H; reflexivity).

(** When the setup succeeds the script comes to the startup read, with
    the four calls of the setup made for the selected module. *)
Lemma script_reaches_startup_read (lib : sr.Library) (argv : list string) (m : string)
    (conn : sr.Connection_t) (sess : sr.Session_t) (subscribe : sr.Subscribe_t) :
  fst (select_module_name argv world0) = Ok m ->
  sr.connect lib "example_application" = Ok conn ->
  sr.session_of conn = Ok sess ->
  sr.subscribe_of sess = Ok subscribe ->
  sr.subscribe_answer subscribe m = Ok tt ->
  exists text,
    script lib argv world0 =
    try_except_Exception (startup_read sess m ;; after_startup_read lib)
      (fun e => print_exception e) (ready m text).
Proof.
  intros Hsel Hconn Hsess Hsub Hanswer.
  unfold script, script_body, run_application.
  rewrite select_module_name_run in Hsel.
  destruct (nth_error argv 1) as [a|] eqn:Hnth; cbn [fst] in Hsel; inversion Hsel; subst m.
  all: erewrite try_bind_ok by (rewrite select_module_name_run, Hnth; reflexivity).
  all: library_step Hconn; library_step Hsess; library_step Hsub; library_step Hanswer.
  all: erewrite try_bind_ok by apply print_run.
  all: eexists; reflexivity.
Qed.

Lemma keeps_ready (m text : string) :
  keeps m (startup_calls m) (logged (Call_get_items ("/" ++ m ++ ":*//*")) (ready m text)).
Proof.
  split; [|split].
  - cbn. repeat constructor.
  - cbn. repeat constructor.
  - exists []. reflexivity.
Qed.

(** Every call of a run names the selected module. *)
Lemma script_names_module (lib : sr.Library) (argv : list string) (m : string) :
  fst (select_module_name argv world0) = Ok m ->
  keeps m [] (snd (script lib argv world0)).
Proof.
  intro Hsel. unfold script, script_body.
  rewrite select_module_name_run in Hsel.
  destruct (nth_error argv 1) as [a|] eqn:Hnth; cbn [fst] in Hsel; inversion Hsel; subst m.
  all: erewrite try_bind_ok by (rewrite select_module_name_run, Hnth; reflexivity).
  all: apply snd_try; [|intro e; apply preserves_print_exception].
  all: apply preserves_run_application.
  all: split; [constructor | split; [constructor | exists []; reflexivity]].
Qed.

(** When the setup succeeds the calls of a run begin with those of the
    startup for the selected module. *)
Lemma script_startup_calls (lib : sr.Library) (argv : list string) (m : string)
    (conn : sr.Connection_t) (sess : sr.Session_t) (subscribe : sr.Subscribe_t) :
  fst (select_module_name argv world0) = Ok m ->
  sr.connect lib "example_application" = Ok conn ->
  sr.session_of conn = Ok sess ->
  sr.subscribe_of sess = Ok subscribe ->
  sr.subscribe_answer subscribe m = Ok tt ->
  keeps m (startup_calls m) (snd (script lib argv world0)).
Proof.
  intros Hsel Hconn Hsess Hsub Hanswer.
  destruct (script_reaches_startup_read lib argv m conn sess subscribe
              Hsel Hconn Hsess Hsub Hanswer) as [text ->].
  apply snd_try; [|intro e; apply preserves_print_exception].
  apply snd_bind; [|intros _; apply preserves_after_startup_read].
  unfold startup_read. apply snd_try; [|intro e; apply preserves_print_exception].
  rewrite print_current_config_run. cbv zeta.
  destruct (sr.items sess _) as [values|e]; cbn [snd].
  - unfold keeps. destruct (formatted_in_turn_calls values
      (logged (Call_get_items ("/" ++ m ++ ":*//*")) (ready m text))) as [-> ->].
    apply keeps_ready.
  - apply keeps_ready.
Qed.


(** C6: with no argument after the program name the selected module
    name is "ietf-interfaces"; every subscription and every query of the
    run is for that name, and when the setup succeeds the run begins by
    subscribing to it and reading its configuration. *)
Theorem default_module_name_used (lib : sr.Library) (argv : list string) :
  List.length argv <= 1 ->
  fst (select_module_name argv world0) = Ok "ietf-interfaces" /\
  Forall (names_module "ietf-interfaces") (calls (snd (script lib argv world0))) /\
  forall conn sess subscribe,
    sr.connect lib "example_application" = Ok conn ->
    sr.session_of conn = Ok sess ->
    sr.subscribe_of sess = Ok subscribe ->
    sr.subscribe_answer subscribe "ietf-interfaces" = Ok tt ->
    exists later,
      calls (snd (script lib argv world0)) =
      (startup_calls "ietf-interfaces" ++ later)%list.
Proof.
  intro Hlen.
  assert (Hsel : fst (select_module_name argv world0) = Ok "ietf-interfaces").
  { rewrite select_module_name_run.
    destruct argv as [|a0 [|a1 rest]]; [reflexivity | reflexivity | cbn in Hlen; lia]. }
  split; [exact Hsel|]. split.
  - apply (script_names_module lib argv _ Hsel).
  - intros conn sess subscribe Hconn Hsess Hsub Hanswer.
    apply (script_startup_calls lib argv _ conn sess subscribe
             Hsel Hconn Hsess Hsub Hanswer).
Qed.

Lemma default_module_name_used_witness :
  List.length ["pytho2_application_example.py"] <= 1 /\
  exists later,
    calls (snd (script sample_library ["pytho2_application_example.py"] world0)) =
    (startup_calls "ietf-interfaces" ++ later)%list.
Proof.
  assert (H : List.length ["pytho2_application_example.py"] <= 1) by (cbn; lia).
  split; [exact H|].
  exact (proj2 (proj2 (default_module_name_used sample_library
                         ["pytho2_application_example.py"] H))
           _ _ _ eq_refl eq_refl eq_refl eq_refl).
Defined.

Lemma try_bind_raise {A B} (c : M A) (k : A -> M B) (h : pyexn -> M B)
    (w w1 : world) (e : pyexn) :
  c w = (Raise e, w1) ->
  isinstance_Exception e = true ->
  try_except_Exception (bind c k) h w = h e w1.
Proof. intros H He. unfold try_except_Exception, bind. now rewrite H, He. Qed.

(** The startup read begins after the hint, if any, and the first
    banner. *)
Lemma script_reaches_startup_read_text (lib : sr.Library) (argv : list string)
    (m : string) (conn : sr.Connection_t) (sess : sr.Session_t)
    (subscribe : sr.Subscribe_t) :
  fst (select_module_name argv world0) = Ok m ->
  sr.connect lib "example_application" = Ok conn ->
  sr.session_of conn = Ok sess ->
  sr.subscribe_of sess = Ok subscribe ->
  sr.subscribe_answer subscribe m = Ok tt ->
  script lib argv world0 =
  try_except_Exception (startup_read sess m ;; after_startup_read lib)
    (fun e => print_exception e)
    (ready m (stdout (snd (select_module_name argv world0)) ++ reading_banner)).
Proof.
  intros Hsel Hconn Hsess Hsub Hanswer.
  unfold script, script_body, run_application.
  rewrite select_module_name_run in Hsel |- *.
  destruct (nth_error argv 1) as [a|] eqn:Hnth; cbn [fst] in Hsel; inversion Hsel; subst m.
  all: erewrite try_bind_ok by (rewrite select_module_name_run, Hnth; reflexivity).
  all: library_step Hconn; library_step Hsess; library_step Hsub; library_step Hanswer.
  all: erewrite try_bind_ok by apply print_run.
  all: reflexivity.
Qed.










(** * Further properties *)

(** ** The formatter *)

(** X1: the payload of a string or of an enumeration is written as it
    is after the equals sign, with no quotes and no escapes. *)
Theorem text_payload_verbatim (x s : string) (w : world) :
  print_value (sr.mkVal x (sr.string_val s)) w =
    (Ok tt, printed (x ++ "  = " ++ s ++ nl) w) /\
  print_value (sr.mkVal x (sr.enum_val s)) w =
    (Ok tt, printed (x ++ "  = " ++ s ++ nl) w).
Proof.
  rewrite !print_value_run. unfold formatted_line.
  split; do 2 f_equal; run_print_value;
    unfold printed, blank; cbn; norm_append; reflexivity.
Qed.

Lemma repr_char_plain (c : ascii) :
  plain_char c = true -> repr_char squote c = String c EmptyString.
Proof.
  unfold plain_char, repr_char. cbv zeta.
  intro H. apply andb_prop in H as [H Hb]. apply andb_prop in H as [H Hq].
  apply andb_prop in H as [Hlo Hhi].
  apply negb_true_iff in Hb, Hq. rewrite Hq, Hb. cbn [orb].
  apply Nat.leb_le in Hlo. apply Nat.ltb_lt in Hhi.
  destruct (Nat.eqb_spec (nat_of_ascii c) 9); [lia|].
  destruct (Nat.eqb_spec (nat_of_ascii c) 10); [lia|].
  destruct (Nat.eqb_spec (nat_of_ascii c) 13); [lia|].
  destruct (Nat.ltb_spec (nat_of_ascii c) 32); [lia|].
  destruct (Nat.leb_spec 127 (nat_of_ascii c)); [lia|].
  reflexivity.
Qed.

Lemma repr_str_plain (s : string) :
  plain s = true -> repr_str s = "'" ++ s ++ "'".
Proof.
  intro H.
  assert (Hq : contains_char squote s = false /\ repr_chars squote s = s).
  { induction s as [|c s IH]; [split; reflexivity|].
    cbn [plain] in H. apply andb_prop in H as [Hc Hs].
    destruct (IH Hs) as [IH1 IH2]. cbn [contains_char repr_chars].
    rewrite IH1, IH2, (repr_char_plain c Hc). split; [|reflexivity].
    unfold plain_char in Hc. apply andb_prop in Hc as [Hc _].
    apply andb_prop in Hc as [_ Hc]. apply negb_true_iff in Hc.
    now rewrite Hc. }
  destruct Hq as [Hq Hr]. unfold repr_str. rewrite Hq. cbn [andb].
  rewrite Hr. reflexivity.
Qed.

(** X2: the payload of an identity reference, of a bit set or of a
    binary is written as [repr] gives it: when it is made of printable
    characters other than the single quote and the backslash, between
    single quotes. *)
Theorem quoted_payload (x s : string) (d : sr.sr_data_t) (w : world) :
  plain s = true ->
  In d [sr.identityref_val s; sr.bits_val s; sr.binary_val s] ->
  print_value (sr.mkVal x d) w =
  (Ok tt, printed (x ++ "  = '" ++ s ++ "'" ++ nl) w).
Proof.
  intros Hs Hd. rewrite print_value_run. do 2 f_equal.
  unfold formatted_line.
  destruct Hd as [<-|[<-|[<-|[]]]]; run_print_value;
    unfold printed, blank; cbn [repr stdout softspace world0];
    rewrite (repr_str_plain s Hs); cbn; norm_append; reflexivity.
Qed.

Lemma quoted_payload_witness :
  plain "ethernetCsmacd" = true /\
  stdout (snd (print_value sample_type world0)) =
  "/ietf-interfaces:interfaces/interface/type  = 'ethernetCsmacd'" ++ nl.
Proof.
  split; [reflexivity|]. unfold sample_type.
  rewrite (quoted_payload "/ietf-interfaces:interfaces/interface/type"
             "ethernetCsmacd" (sr.identityref_val "ethernetCsmacd") world0
             eq_refl (or_introl eq_refl)).
  reflexivity.
Defined.

(** X3: an integer payload that fits a C long is written in decimal
    after the equals sign, whatever its width and signedness. *)
Theorem integer_payload_decimal (x : string) (n : Z) (d : sr.sr_data_t) (w : world) :
  (- sys_maxint - 1 <= n <= sys_maxint)%Z ->
  In d (integer_payloads n) ->
  print_value (sr.mkVal x d) w =
  (Ok tt, printed (x ++ "  = " ++ decimal n ++ nl) w).
Proof.
  intros Hn Hd. rewrite print_value_run. do 2 f_equal.
  assert (Hint : py_integer n = PyInt n).
  { unfold py_integer.
    destruct (Z.leb_spec (- sys_maxint - 1) n); [|lia].
    destruct (Z.leb_spec n sys_maxint); [reflexivity|lia]. }
  unfold formatted_line, integer_payloads in *.
  repeat (destruct Hd as [<-|Hd]); [..|destruct Hd];
    run_print_value; rewrite Hint;
    unfold printed, blank; cbn [repr str stdout softspace world0];
    cbn [append]; norm_append; reflexivity.
Qed.

Lemma integer_payload_decimal_witness :
  (- sys_maxint - 1 <= 1500 <= sys_maxint)%Z /\
  stdout (snd (print_value sample_mtu world0)) = "/ietf-ip:ipv4/mtu  = 1500" ++ nl.
Proof.
  assert (H : (- sys_maxint - 1 <= 1500 <= sys_maxint)%Z) by (unfold sys_maxint; lia).
  split; [exact H|]. unfold sample_mtu.
  rewrite (integer_payload_decimal "/ietf-ip:ipv4/mtu" 1500 (sr.uint16_val 1500)
             world0 H (or_intror (or_introl eq_refl))).
  reflexivity.
Defined.

(** X4: whatever the value, the formatter returns normally; of the
    calls the world records (the connection, the session, the
    subscription object, the subscription, the query and the event
    loop) it makes none, reading the value through its own methods
    only; it leaves the output at the start of a line, the flag of the
    [print] statement cleared. *)
Theorem formatter_only_prints (value : sr.Val) (w : world) :
  fst (print_value value w) = Ok tt /\
  calls (snd (print_value value w)) = calls w /\
  subscribed (snd (print_value value w)) = subscribed w /\
  softspace (snd (print_value value w)) = false /\
  exists text, stdout (snd (print_value value w)) = stdout w ++ text ++ nl.
Proof.
  rewrite print_value_run. repeat (split; [reflexivity|]).
  destruct (formatted_line_shape value) as [body Hbody].
  exists (blank w ++ sr.xpath value ++ " " ++ body).
  cbn [snd printed stdout]. rewrite Hbody. now norm_append.
Qed.

(** ** The dumper and the callback *)

(** X5: the dumper raises only what the query raises: the index it
    hands to the collection is always in range and the formatter never
    fails.  When it raises, it has written nothing. *)
Theorem dump_raises_query_error (session : sr.Session_t) (m : string)
    (w w1 : world) (e : pyexn) :
  print_current_config session m w = (Raise e, w1) ->
  sr.items session ("/" ++ m ++ ":*//*") = Raise e /\
  stdout w1 = stdout w /\ softspace w1 = softspace w.
Proof.
  rewrite print_current_config_run. cbv zeta.
  destruct (sr.items session _) as [values|e']; intro H; inversion H.
  repeat split.
Qed.

Lemma dump_raises_query_error_witness :
  print_current_config failing_session "ietf-interfaces" world0 =
    (Raise module_not_found, logged (Call_get_items "/ietf-interfaces:*//*") world0) /\
  sr.items failing_session ("/" ++ "ietf-interfaces" ++ ":*//*") = Raise module_not_found.
Proof.
  assert (H : print_current_config failing_session "ietf-interfaces" world0 =
              (Raise module_not_found,
               logged (Call_get_items "/ietf-interfaces:*//*") world0))
    by reflexivity.
  split; [exact H|].
  exact (proj1 (dump_raises_query_error failing_session "ietf-interfaces"
                  world0 _ module_not_found H)).
Defined.

(** X6: for an empty collection the dumper writes nothing and returns
    normally; only the query is recorded. *)
Theorem dump_of_nothing (session : sr.Session_t) (m : string) (w : world) :
  sr.items session ("/" ++ m ++ ":*//*") = Ok [] ->
  print_current_config session m w =
  (Ok tt, logged (Call_get_items ("/" ++ m ++ ":*//*")) w).
Proof.
  intro H. rewrite print_current_config_run. cbv zeta. now rewrite H.
Qed.

Lemma dump_of_nothing_witness :
  sr.items empty_session ("/" ++ "ietf-interfaces" ++ ":*//*") = Ok [] /\
  stdout (snd (print_current_config empty_session "ietf-interfaces" world0)) =
  EmptyString.
Proof.
  split; [reflexivity|].
  now rewrite (dump_of_nothing empty_session "ietf-interfaces" world0 eq_refl).
Defined.

(** X7: the callback has no handler of its own: when the query of the
    session it is handed raises, the callback raises the same exception
    to the library, after its header and nothing else has been
    written. *)
Theorem callback_failure_propagates (sess : sr.Session_t) (module_name : string)
    (event : Z) (private_ctx : pyobj) (w : world) (e : pyexn) :
  sr.items sess ("/" ++ module_name ++ ":*//*") = Raise e ->
  module_change_cb sess module_name event private_ctx w =
  (Raise e,
   logged (Call_get_items ("/" ++ module_name ++ ":*//*")) (printed change_header w)).
Proof.
  intro H. unfold module_change_cb, bind. rewrite print_run.
  rewrite print_current_config_run. cbv zeta. rewrite H.
  cbn [str]. unfold change_header. now norm_append.
Qed.

Lemma callback_failure_propagates_witness :
  sr.items failing_session ("/" ++ "ietf-interfaces" ++ ":*//*") =
    Raise module_not_found /\
  fst (module_change_cb failing_session "ietf-interfaces" 0 PyNone world0) =
    Raise module_not_found.
Proof.
  split; [reflexivity|].
  now rewrite (callback_failure_propagates failing_session "ietf-interfaces"
                 0 PyNone world0 module_not_found eq_refl).
Defined.

(** ** The script *)

(** X8: the choice of the module name never raises: the second entry of
    the argument list is read only when there is one.  With a second
    entry the name is that entry and nothing is written; without, the
    name is the default and the hint is written. *)
Theorem module_name_selection (argv : list string) (w : world) :
  exists m w1,
    select_module_name argv w = (Ok m, w1) /\
    ((nth_error argv 1 = Some m /\ w1 = w) \/
     (List.length argv <= 1 /\ m = "ietf-interfaces" /\ w1 = printed usage_hint w)).
Proof.
  rewrite select_module_name_run.
  destruct argv as [|a0 [|a1 rest]]; cbn [nth_error].
  - eexists _, _. split; [reflexivity|]. right. cbn. repeat split; lia.
  - eexists _, _. split; [reflexivity|]. right. cbn. repeat split; lia.
  - eexists _, _. split; [reflexivity|]. left. split; reflexivity.
Qed.

(** X9: with an argument after the program name every subscription and
    every query of the run is for that argument, and when the setup
    succeeds the run begins by subscribing to it and reading its
    configuration. *)
Theorem argument_module_name_used (lib : sr.Library) (argv : list string) (a : string) :
  nth_error argv 1 = Some a ->
  Forall (names_module a) (calls (snd (script lib argv world0))) /\
  forall conn sess subscribe,
    sr.connect lib "example_application" = Ok conn ->
    sr.session_of conn = Ok sess ->
    sr.subscribe_of sess = Ok subscribe ->
    sr.subscribe_answer subscribe a = Ok tt ->
    exists later,
      calls (snd (script lib argv world0)) = (startup_calls a ++ later)%list.
Proof.
  intro Hnth.
  assert (Hsel : fst (select_module_name argv world0) = Ok a)
    by (rewrite select_module_name_run, Hnth; reflexivity).
  split.
  - apply (script_names_module lib argv a Hsel).
  - intros conn sess subscribe Hconn Hsess Hsub Hanswer.
    apply (script_startup_calls lib argv a conn sess subscribe
             Hsel Hconn Hsess Hsub Hanswer).
Qed.

Lemma argument_module_name_used_witness :
  nth_error ["pytho2_application_example.py"; "ietf-ip"] 1 = Some "ietf-ip" /\
  exists later,
    calls (snd (script sample_library ["pytho2_application_example.py"; "ietf-ip"]
                  world0)) =
    (startup_calls "ietf-ip" ++ later)%list.
Proof.
  split; [reflexivity|].
  exact (proj2 (argument_module_name_used sample_library
                  ["pytho2_application_example.py"; "ietf-ip"] "ietf-ip" eq_refl)
           _ _ _ eq_refl eq_refl eq_refl eq_refl).
Defined.

Ltac library_fails H He :=
  erewrite try_bind_raise;
    [ | cbv [sr.Connection sr.Session sr.Subscribe sr.module_change_subscribe
             bind log lift];
        rewrite H; reflexivity
      | exact He ].

(** X10: when a step of the setup raises an exception of class
    [Exception] the script makes no query and never enters the event
    loop; the outer handler prints [str(e)]: when that can be computed
    the script writes it after the hint, if any, and ends normally;
    when it raises, the error it raises leaves the script and nothing
    more is written. *)
Theorem setup_failure_ends_script (lib : sr.Library) (argv : list string)
    (m : string) (e : pyexn) :
  fst (select_module_name argv world0) = Ok m ->
  setup_raises lib m e ->
  isinstance_Exception e = true ->
  ~ In Call_global_loop (calls (snd (script lib argv world0))) /\
  (forall x, ~ In (Call_get_items x) (calls (snd (script lib argv world0)))) /\
  (forall s,
      exception_str e = Ok s ->
      fst (script lib argv world0) = Ok tt /\
      stdout (snd (script lib argv world0)) =
        stdout (snd (select_module_name argv world0)) ++ s ++ nl) /\
  (forall e',
      exception_str e = Raise e' ->
      fst (script lib argv world0) = Raise e' /\
      stdout (snd (script lib argv world0)) =
        stdout (snd (select_module_name argv world0))).
Proof.
  intros Hsel Hsetup He.
  unfold script, script_body, run_application.
  rewrite select_module_name_run in Hsel |- *.
  destruct (nth_error argv 1) as [a|] eqn:Hnth; cbn [fst] in Hsel; inversion Hsel; subst m.
  all: erewrite try_bind_ok by (rewrite select_module_name_run, Hnth; reflexivity).
  all: destruct Hsetup as [Hc | conn Hc Hs | conn sess Hc Hs Hb
                           | conn sess subscribe Hc Hs Hb Ha].
  all: try library_step Hc; try library_step Hs; try library_step Hb.
  all: first [library_fails Hc He | library_fails Hs He
             | library_fails Hb He | library_fails Ha He].
  all: destruct (exception_str e) as [s|e'] eqn:Hstr;
    [ rewrite (print_exception_run e s _ Hstr)
    | rewrite (print_exception_raise e e' _ Hstr) ].
  all: cbn [fst snd printed blanked calls stdout blank softspace].
  all: split; [cbn; intuition discriminate|].
  all: split; [intro x; cbn; intuition discriminate|].
  all: split; [intros s0 H0 | intros e0 H0]; inversion H0; subst.
  all: split; [reflexivity|]; cbn; norm_append; rewrite ?append_nil_r; reflexivity.
Qed.

Lemma setup_failure_ends_script_witness :
  setup_raises unreachable_library "ietf-interfaces" cannot_connect /\
  fst (script unreachable_library ["pytho2_application_example.py"] world0) = Ok tt /\
  stdout (snd (script unreachable_library ["pytho2_application_example.py"] world0)) =
    usage_hint ++ "Cannot connect to sysrepo" ++ nl /\
  setup_raises unspeakable_library "ietf-interfaces" accented_failure /\
  fst (script unspeakable_library ["pytho2_application_example.py"] world0) =
    Raise (ascii_codec_error 0 233 []).
Proof.
  assert (H : setup_raises unreachable_library "ietf-interfaces" cannot_connect)
    by (apply connection_raises; reflexivity).
  assert (H' : setup_raises unspeakable_library "ietf-interfaces" accented_failure)
    by (apply connection_raises; reflexivity).
  pose proof (setup_failure_ends_script unreachable_library
                ["pytho2_application_example.py"] "ietf-interfaces" cannot_connect
                eq_refl H eq_refl) as (_ & _ & Hok & _).
  pose proof (setup_failure_ends_script unspeakable_library
                ["pytho2_application_example.py"] "ietf-interfaces" accented_failure
                eq_refl H' eq_refl) as (_ & _ & _ & Hraise).
  split; [exact H|].
  split; [exact (proj1 (Hok _ eq_refl))|].
  split; [exact (proj2 (Hok _ eq_refl))|].
  split; [exact H'|].
  exact (proj1 (Hraise _ eq_refl)).
Defined.

(** X11: a run in which the setup succeeds, the startup read returns a
    collection, no change occurs and the event loop returns ends
    normally, having written the hint if no name was given, the first
    banner, the formatted lines of the collection, the second banner
    and the exit line, and having made the calls of the startup and
    entered the event loop once. *)
Theorem quiet_run_output (lib : sr.Library) (argv : list string) (m : string)
    (conn : sr.Connection_t) (sess : sr.Session_t) (subscribe : sr.Subscribe_t)
    (values : sr.Vals) :
  fst (select_module_name argv world0) = Ok m ->
  sr.connect lib "example_application" = Ok conn ->
  sr.session_of conn = Ok sess ->
  sr.subscribe_of sess = Ok subscribe ->
  sr.subscribe_answer subscribe m = Ok tt ->
  sr.items sess ("/" ++ m ++ ":*//*") = Ok values ->
  sr.changes lib m = [] ->
  sr.loop_exit lib = Ok tt ->
  script lib argv world0 =
  (Ok tt,
   mkWorld (stdout (snd (select_module_name argv world0)) ++ reading_banner
            ++ text_of_lines (map formatted_line values)
            ++ applied_banner ++ exit_line)
           false (startup_calls m ++ [Call_global_loop]) [m]).
Proof.
  intros Hsel Hconn Hsess Hsub Hanswer Hitems Hchanges Hexit.
  rewrite (script_reaches_startup_read_text lib argv m conn sess subscribe
             Hsel Hconn Hsess Hsub Hanswer).
  set (text := stdout (snd (select_module_name argv world0)) ++ reading_banner).
  erewrite try_bind_ok
    by (unfold startup_read, try_except_Exception;
        rewrite print_current_config_run; cbv zeta; rewrite Hitems;
        rewrite formatted_in_turn_fresh by reflexivity; reflexivity).
  unfold after_startup_read.
  erewrite try_bind_ok by apply print_run.
  erewrite try_bind_ok
    by (cbv [sr.global_loop bind log lift]; cbn [subscribed printed ready logged for_each];
        cbv [bind]; rewrite Hchanges; cbn [sr.deliver ret]; rewrite Hexit; reflexivity).
  unfold try_except_Exception. rewrite print_run.
  unfold printed, blank, applied_banner, exit_line, startup_calls, text.
  cbn. norm_append. reflexivity.
Qed.

Lemma quiet_run_output_witness :
  sr.items sample_session ("/" ++ "ietf-interfaces" ++ ":*//*") =
    Ok [sample_container; sample_bool; sample_bool; sample_unlisted] /\
  fst (script quiet_library ["pytho2_application_example.py"] world0) = Ok tt.
Proof.
  split; [reflexivity|].
  now rewrite (quiet_run_output quiet_library ["pytho2_application_example.py"]
                 "ietf-interfaces" _ sample_session _ _
                 eq_refl eq_refl eq_refl eq_refl eq_refl eq_refl eq_refl eq_refl).
Defined.

(** X12: when the query of the session it is handed returns a
    collection, the callback returns normally, having written its
    header and then the formatted lines of the collection, and having
    made that one query. *)
Theorem callback_output (sess : sr.Session_t) (module_name : string)
    (event : Z) (private_ctx : pyobj) (values : sr.Vals) (w : world) :
  sr.items sess ("/" ++ module_name ++ ":*//*") = Ok values ->
  module_change_cb sess module_name event private_ctx w =
  (Ok tt,
   mkWorld (stdout w ++ blank w ++ change_header
            ++ text_of_lines (map formatted_line values))
           false
           (calls w ++ [Call_get_items ("/" ++ module_name ++ ":*//*")])
           (subscribed w)).
Proof.
  intro H. unfold module_change_cb, bind. rewrite print_run.
  rewrite print_current_config_run. cbv zeta. rewrite H.
  rewrite formatted_in_turn_fresh by reflexivity.
  cbn [str]. unfold change_header, printed, logged. cbn. now norm_append.
Qed.

Lemma callback_output_witness :
  sr.items sample_session ("/" ++ "ietf-interfaces" ++ ":*//*") =
    Ok [sample_container; sample_bool; sample_bool; sample_unlisted] /\
  fst (module_change_cb sample_session "ietf-interfaces" 0 PyNone world0) = Ok tt.
Proof.
  split; [reflexivity|].
  now rewrite (callback_output sample_session "ietf-interfaces" 0 PyNone _ world0
                 eq_refl).
Defined.
